(** * Container components: the component factory of
    [tfx/dsl/component/experimental/container_components.py]

    A shallow embedding of [create_container_component] and of the
    constructor it installs on the generated component class, followed by
    the properties of the factory.

    Python dictionaries keyed by text are finite maps [gmap string _];
    [d[k] = v] is [<[k:=v]> d] and [d.update(e)] is a union in which [e]
    wins.  Objects whose identity can be observed (artifact instances,
    channels, the two generated classes) carry an object identifier taken
    from an allocation counter that is threaded through the factory. *)

From stdpp Require Import gmap strings list fin_maps.

Open Scope string_scope.

(** ** Object allocation *)

Definition oid := nat.

(** A computation that allocates objects: it receives the next free
    identifier and returns its result with the next free identifier. *)
Definition Alloc (A : Type) : Type := oid → A * oid.

Definition alloc_ret {A : Type} (a : A) : Alloc A := λ h, (a, h).

Definition alloc_bind {A B : Type} (m : Alloc A) (k : A → Alloc B) : Alloc B :=
  λ h, let '(a, h') := m h in k a h'.

Definition fresh : Alloc oid := λ h, (h, S h).

Notation "x <- m ;; k" := (alloc_bind m (λ x, k))
  (at level 20, m at level 99, k at level 200, only parsing).
Notation "' p <- m ;; k" := (alloc_bind m (λ p, k))
  (at level 20, p pattern, m at level 99, k at level 200, only parsing).

(** ** Python idioms used by the factory *)

(** [xs or []] for a list argument that may be [None]. *)
Definition or_empty_list {A : Type} (xs : option (list A)) : list A :=
  match xs with
  | Some l => l
  | None => []
  end.

(** [s or d] for a text [s]: the empty text is falsy. *)
Definition or_text (s d : string) : string :=
  if decide (s = "") then d else s.

(** [d.update(e)]: every key of [e] is written into [d]. *)
Definition update {V : Type} (d e : gmap string V) : gmap string V := e ∪ d.

(** [d.pop(k, dflt)]: the value under [k], or [dflt] when the key is
    missing, and the dictionary without the key. *)
Definition pop {V : Type} (k : string) (dflt : V) (d : gmap string V)
  : V * gmap string V :=
  (default dflt (d !! k), delete k d).

Section Model.

(** A Python type object (an artifact class, or [int], [str], ... for a
    parameter): an opaque token. *)
Context {PyType : Type}.

(** ** Descriptors *)

Record InputSpec := {
  name : string;
  type : PyType;
  optional : bool;
}.

Record OutputSpec := {
  output_name : string;
  output_type : PyType;
}.

(** ** Collaborator types *)

(** Modelled from the spec: an artifact type is instantiable with no
    arguments and yields an empty placeholder instance; the instance is
    a new object of that class. *)
Record Artifact := {
  artifact_oid : oid;
  artifact_class : PyType;
}.

Definition instantiate (artifact_type : PyType) : Alloc Artifact :=
  i <- fresh ;;
  alloc_ret {| artifact_oid := i; artifact_class := artifact_type |}.

(** Modelled from the spec: [channel.Channel], a container that wraps a
    type and a sequence of artifact instances. *)
Record Channel := {
  channel_oid : oid;
  channel_type : PyType;
  channel_artifacts : list Artifact;
}.

Definition new_Channel (type : PyType) (artifacts : list Artifact)
  : Alloc Channel :=
  i <- fresh ;;
  alloc_ret {| channel_oid := i; channel_type := type;
               channel_artifacts := artifacts |}.

(** Modelled from the spec: [component_spec.ChannelParameter] and
    [component_spec.ExecutionParameter], the typed declarations of a
    channel and of an execution parameter. *)
Record ChannelParameter := { channel_parameter_type : PyType }.
Record ExecutionParameter := { execution_parameter_type : PyType }.

(** Modelled from the spec: [executor_specs.CommandlineArgumentType], a
    literal token or one of the placeholders named in the factory's
    docstring. *)
Inductive CommandlineArgumentType :=
| Literal (text : string)
| InputValuePlaceholder (input_name : string)
| InputUriPlaceholder (input_name : string)
| OutputUriPlaceholder (output_name : string).

(** Modelled from the spec: [executor_specs.TemplatedExecutorContainerSpec],
    the executor descriptor carrying an image and a command line. *)
Record TemplatedExecutorContainerSpec := {
  image : string;
  command : list CommandlineArgumentType;
}.

(** A value a caller can pass as a keyword argument. *)
Inductive PyValue :=
| PyNone
| PyText (s : string)
| PyInt (z : Z)
| PyChannel (c : Channel).

(** ** [_create_channel_with_empty_artifact] *)

Definition _create_channel_with_empty_artifact (artifact_type : PyType)
  : Alloc Channel :=
  a <- instantiate artifact_type ;;
  new_Channel artifact_type [a].

(** ** The three loops of [create_container_component] *)

(** [for input_spec in inputs or []]: the loop mutates
    [input_channel_parameters] and [default_input_channels]. *)
Fixpoint inputs_loop (inputs : list InputSpec)
    (input_channel_parameters : gmap string ChannelParameter)
    (default_input_channels : gmap string Channel)
  : Alloc (gmap string ChannelParameter * gmap string Channel) :=
  match inputs with
  | [] => alloc_ret (input_channel_parameters, default_input_channels)
  | input_spec :: rest =>
      let python_input_name := name input_spec in
      let input_channel_parameters :=
        <[python_input_name :=
            {| channel_parameter_type := type input_spec |}]>
          input_channel_parameters in
      if optional input_spec then
        c <- _create_channel_with_empty_artifact (type input_spec) ;;
        inputs_loop rest input_channel_parameters
          (<[python_input_name := c]> default_input_channels)
      else
        inputs_loop rest input_channel_parameters default_input_channels
  end.

(** [for output_spec in outputs or []]: the loop mutates
    [output_channel_parameters] and [output_channels]. *)
Fixpoint outputs_loop (outputs : list OutputSpec)
    (output_channel_parameters : gmap string ChannelParameter)
    (output_channels : gmap string Channel)
  : Alloc (gmap string ChannelParameter * gmap string Channel) :=
  match outputs with
  | [] => alloc_ret (output_channel_parameters, output_channels)
  | output_spec :: rest =>
      let python_output_name := output_name output_spec in
      let output_channel_parameters :=
        <[python_output_name :=
            {| channel_parameter_type := output_type output_spec |}]>
          output_channel_parameters in
      c <- _create_channel_with_empty_artifact (output_type output_spec) ;;
      outputs_loop rest output_channel_parameters
        (<[python_output_name := c]> output_channels)
  end.

(** [for input_spec in parameters or []]: the loop mutates
    [execution_parameters] only and constructs no channel. *)
Fixpoint parameters_loop (parameters : list InputSpec)
    (execution_parameters : gmap string ExecutionParameter)
  : gmap string ExecutionParameter :=
  match parameters with
  | [] => execution_parameters
  | input_spec :: rest =>
      let python_input_name := name input_spec in
      parameters_loop rest
        (<[python_input_name :=
             {| execution_parameter_type := type input_spec |}]>
           execution_parameters)
  end.

(** ** The generated classes *)

(** The class built by [type(component_class_name + 'Spec', ...)]. *)
Record ComponentSpecClass := {
  spec_class_oid : oid;
  spec_class_name : string;
  PARAMETERS : gmap string ExecutionParameter;
  INPUTS : gmap string ChannelParameter;
  OUTPUTS : gmap string ChannelParameter;
}.

(** The variables of the factory call that the closure
    [tfx_component_class_init] captures. *)
Record InitClosure := {
  default_input_channels : gmap string Channel;
  output_channels : gmap string Channel;
}.

(** The class built by [type(component_class_name, ...)]; [init_closure]
    is its [__init__] attribute. *)
Record ComponentClass := {
  class_oid : oid;
  class_name : string;
  SPEC_CLASS : ComponentSpecClass;
  EXECUTOR_SPEC : TemplatedExecutorContainerSpec;
  init_closure : InitClosure;
}.

(** ** [tfx_component_class_init] *)

(** The specification instance built by calling [SPEC_CLASS] on the
    argument dictionary: the class instantiated and the keyword
    arguments it receives. *)
Record SpecInstance := {
  spec_class : ComponentSpecClass;
  spec_arguments : gmap string PyValue;
}.

(** The call [BaseComponent.__init__(self, spec=..., instance_name=...)]
    that ends the constructor. *)
Record BaseComponentInit := {
  spec : SpecInstance;
  instance_name : PyValue;
}.

(** The argument dictionary built by the constructor. *)
Definition merged_arguments (env : InitClosure) (kwargs : gmap string PyValue)
  : gmap string PyValue :=
  let arguments := ∅ in
  let arguments := update arguments (PyChannel <$> default_input_channels env) in
  let arguments := update arguments (PyChannel <$> output_channels env) in
  let arguments := update arguments kwargs in
  arguments.

(** [env] holds the captured variables and [cls] is [self.__class__]. *)
Definition tfx_component_class_init (env : InitClosure) (cls : ComponentClass)
    (kwargs : gmap string PyValue) : BaseComponentInit :=
  let '(instance_name, kwargs) := pop "instance_name" PyNone kwargs in
  let arguments := merged_arguments env kwargs in
  {| spec := {| spec_class := SPEC_CLASS cls; spec_arguments := arguments |};
     instance_name := instance_name |}.

(** Calling the generated class with keyword arguments runs its
    [__init__] on a new instance of that class. *)
Definition new_component (cls : ComponentClass) (kwargs : gmap string PyValue)
  : BaseComponentInit :=
  tfx_component_class_init (init_closure cls) cls kwargs.

(** ** [create_container_component] *)

Definition create_container_component
    (name : string)
    (inputs : option (list InputSpec))
    (outputs : option (list OutputSpec))
    (parameters : option (list InputSpec))
    (image : string)
    (command : list CommandlineArgumentType)
  : Alloc ComponentClass :=
  let component_name := name in
  let input_channel_parameters := ∅ in
  let output_channel_parameters := ∅ in
  let default_input_channels := ∅ in
  let output_channels := ∅ in
  let execution_parameters := ∅ in
  '(input_channel_parameters, default_input_channels) <-
    inputs_loop (or_empty_list inputs)
      input_channel_parameters default_input_channels ;;
  '(output_channel_parameters, output_channels) <-
    outputs_loop (or_empty_list outputs)
      output_channel_parameters output_channels ;;
  let execution_parameters :=
    parameters_loop (or_empty_list parameters) execution_parameters in
  let component_name := or_text component_name "Component" in
  let component_class_name := component_name in
  spec_oid <- fresh ;;
  let tfx_component_spec_class :=
    {| spec_class_oid := spec_oid;
       spec_class_name := component_class_name +:+ "Spec";
       PARAMETERS := execution_parameters;
       INPUTS := input_channel_parameters;
       OUTPUTS := output_channel_parameters |} in
  cls_oid <- fresh ;;
  let tfx_component_class :=
    {| class_oid := cls_oid;
       class_name := component_class_name;
       SPEC_CLASS := tfx_component_spec_class;
       EXECUTOR_SPEC := {| image := image; command := command |};
       init_closure :=
         {| default_input_channels := default_input_channels;
            output_channels := output_channels |} |} in
  alloc_ret tfx_component_class.

End Model.

(** ** Auxiliary definitions for the statements *)

(** The last element of [l] whose key is [n]. *)
Definition last_with {A : Type} (key : A → string) (n : string) (l : list A)
  : option A :=
  last (filter (λ d, key d = n) l).

(** A dictionary after the assignments [m[key d] = val d] for [d] in [l],
    in list order. *)
Definition declare {A D : Type} (key : A → string) (val : A → D)
    (l : list A) (m : gmap string D) : gmap string D :=
  foldl (λ m d, <[key d := val d]> m) m l.

Section Auxiliary.

Context {PyType : Type}.

Definition channel_declaration (d : @InputSpec PyType) : ChannelParameter :=
  {| channel_parameter_type := type d |}.

Definition output_declaration (d : @OutputSpec PyType) : ChannelParameter :=
  {| channel_parameter_type := output_type d |}.

Definition parameter_declaration (d : @InputSpec PyType)
  : ExecutionParameter :=
  {| execution_parameter_type := type d |}.

(** The channel that [_create_channel_with_empty_artifact t] builds when
    the next free identifier is [k]. *)
Definition empty_channel_at (t : PyType) (k : oid) : Channel :=
  {| channel_oid := S k;
     channel_type := t;
     channel_artifacts := [{| artifact_oid := k; artifact_class := t |}] |}.

(** The assignments [m[n] = _create_channel_with_empty_artifact(t)] for
    [(n, t)] in [l], in list order. *)
Fixpoint default_channels (l : list (string * PyType))
    (m : gmap string Channel) : Alloc (gmap string Channel) :=
  match l with
  | [] => alloc_ret m
  | (n, t) :: rest =>
      c <- _create_channel_with_empty_artifact t ;;
      default_channels rest (<[n := c]> m)
  end.

(** The names and types of the inputs that get a default channel, and
    of the outputs. *)
Definition optional_inputs (inputs : list (@InputSpec PyType))
  : list (string * PyType) :=
  (λ d, (name d, type d)) <$> filter (λ d, optional d = true) inputs.

Definition output_pairs (outputs : list (@OutputSpec PyType))
  : list (string * PyType) :=
  (λ d, (output_name d, output_type d)) <$> outputs.

(** Forgetting object identity: two channels have the same image when
    they differ in their identifiers only. *)
Definition forget_artifact (a : @Artifact PyType) : Artifact :=
  {| artifact_oid := 0; artifact_class := artifact_class a |}.

Definition forget_channel (c : @Channel PyType) : Channel :=
  {| channel_oid := 0;
     channel_type := channel_type c;
     channel_artifacts := forget_artifact <$> channel_artifacts c |}.

Definition forget_value (v : @PyValue PyType) : PyValue :=
  match v with
  | PyChannel c => PyChannel (forget_channel c)
  | _ => v
  end.

(** The identifiers of the objects a channel, a dictionary of channels
    and a generated class are made of. *)
Definition channel_oids (c : @Channel PyType) : gset oid :=
  {[ channel_oid c ]} ∪ list_to_set (artifact_oid <$> channel_artifacts c).

Definition channels_oids (m : gmap string (@Channel PyType)) : gset oid :=
  ⋃ ((λ p, channel_oids p.2) <$> map_to_list m).

Definition class_oids (cls : @ComponentClass PyType) : gset oid :=
  {[ class_oid cls ]} ∪ {[ spec_class_oid (SPEC_CLASS cls) ]}
  ∪ channels_oids (default_input_channels (init_closure cls))
  ∪ channels_oids (output_channels (init_closure cls)).

(** Two specification classes, component classes or constructor calls
    that agree in everything but the identity of their objects. *)
Definition alike_spec_classes (s1 s2 : @ComponentSpecClass PyType) : Prop :=
  spec_class_name s1 = spec_class_name s2
  ∧ PARAMETERS s1 = PARAMETERS s2
  ∧ INPUTS s1 = INPUTS s2
  ∧ OUTPUTS s1 = OUTPUTS s2.

Definition alike_classes (c1 c2 : @ComponentClass PyType) : Prop :=
  class_name c1 = class_name c2
  ∧ alike_spec_classes (SPEC_CLASS c1) (SPEC_CLASS c2)
  ∧ EXECUTOR_SPEC c1 = EXECUTOR_SPEC c2
  ∧ forget_channel <$> default_input_channels (init_closure c1)
    = forget_channel <$> default_input_channels (init_closure c2)
  ∧ forget_channel <$> output_channels (init_closure c1)
    = forget_channel <$> output_channels (init_closure c2).

Definition alike_calls (b1 b2 : @BaseComponentInit PyType) : Prop :=
  instance_name b1 = instance_name b2
  ∧ alike_spec_classes (spec_class (spec b1)) (spec_class (spec b2))
  ∧ forget_value <$> spec_arguments (spec b1)
    = forget_value <$> spec_arguments (spec b2).

(** A list argument that is absent or empty. *)
Definition absent_or_empty {A : Type} (xs : option (list A)) : bool :=
  match xs with
  | None | Some [] => true
  | Some (_ :: _) => false
  end.

End Auxiliary.

(** ** Concrete descriptors used in the examples

    Type objects are named by their class name. *)

Definition Input (n t : string) (o : bool) : @InputSpec string :=
  {| name := n; type := t; optional := o |}.

Definition Output (n t : string) : @OutputSpec string :=
  {| output_name := n; output_type := t |}.

(** The scenario of the specification: one required input, one output. *)
Definition trainer : @ComponentClass string :=
  (create_container_component "Trainer"
     (Some [Input "data" "Dataset" false])
     (Some [Output "model" "Model"])
     (Some [])
     "img" [Literal "run"] 0).1.


(** Keyword arguments that name the instance. *)
Definition nightly : gmap string (@PyValue string) :=
  {[ "instance_name" := PyText "nightly" ]}.

(** Two input descriptors with one name: the first optional, the second
    required and of another type. *)
Definition shadowed_inputs : list (@InputSpec string) :=
  [Input "x" "Examples" true; Input "x" "Schema" false].

Definition shadowed : @ComponentClass string :=
  (create_container_component "Shadowed" (Some shadowed_inputs) None None
     "img" [Literal "run"] 0).1.

(** Two output descriptors with one name and different types. *)
Definition shadowed_outputs : list (@OutputSpec string) :=
  [Output "model" "Model"; Output "model" "Metrics"].

Definition remodel : @ComponentClass string :=
  (create_container_component "Remodel" None (Some shadowed_outputs) None
     "img" [Literal "run"] 0).1.

(** Two parameter descriptors with one name and different types. *)
Definition shadowed_parameters : list (@InputSpec string) :=
  [Input "steps" "int" false; Input "steps" "str" false].

Definition stepper : @ComponentClass string :=
  (create_container_component "Stepper" None None (Some shadowed_parameters)
     "img" [Literal "run"; InputValuePlaceholder "steps"] 0).1.



(** A component with a required and an optional input. *)
Definition validator : @ComponentClass string :=
  (create_container_component "Validator"
     (Some [Input "data" "Examples" false; Input "schema" "Schema" true])
     None None "img" [Literal "validate"] 0).1.

(** A component with one parameter and nothing else. *)
Definition counter : @ComponentClass string :=
  (create_container_component "Trainer" None None
     (Some [Input "num_training_steps" "int" false])
     "img" [Literal "run"] 0).1.

(** A component without inputs, outputs and parameters. *)
Definition idle : @ComponentClass string :=
  (create_container_component "Idle" (Some []) None (Some [])
     "img" [Literal "sleep"] 0).1.

(** Keyword arguments for [trainer]. *)
Definition first_run : gmap string (@PyValue string) :=
  {[ "instance_name" := PyText "first"; "data" := PyText "gs://data" ]}.

(** The class of [trainer], created once more after the first. *)
Definition trainer_again : @ComponentClass string :=
  (create_container_component "Trainer"
     (Some [Input "data" "Dataset" false])
     (Some [Output "model" "Model"])
     (Some [])
     "img" [Literal "run"] 4).1.

(** The channels of a dictionary are separated when the channels under
    two different names have no object in common. *)
Definition channels_separated {PyType : Type}
    (m : gmap string (@Channel PyType)) : Prop :=
  ∀ n1 n2 c1 c2, n1 ≠ n2 → m !! n1 = Some c1 → m !! n2 = Some c2 →
    channel_oids c1 ## channel_oids c2.


(** The inputs of [validator] in the other order. *)
Definition validator_swapped : @ComponentClass string :=
  (create_container_component "Validator"
     (Some [Input "schema" "Schema" true; Input "data" "Examples" false])
     None None "img" [Literal "validate"] 7).1.

(** * Properties *)

(** ** The last descriptor with a given name *)

Section LastWith.

Context {A : Type} (key : A → string).

Lemma last_with_cons n d l :
  last_with key n (d :: l) =
    match last_with key n l with
    | Some d' => Some d'
    | None => if decide (key d = n) then Some d else None
    end.
Proof.
  unfold last_with. rewrite filter_cons.
  destruct (decide (key d = n)) as [Heq|Hne].
  - rewrite last_cons. by destruct (last _).
  - by destruct (last _).
Qed.

Lemma last_with_None n l :
  last_with key n l = None ↔ ∀ d, d ∈ l → key d ≠ n.
Proof.
  unfold last_with. rewrite last_None. split.
  - intros Hnil d Hd Hkey.
    by apply (filter_nil_not_elem_of (λ d, key d = n) l d).
  - intros Hall. induction l as [|d l IH]; [done|].
    rewrite filter_cons_False.
    + apply IH. intros d' Hd'. apply Hall. by right.
    + apply Hall. by left.
Qed.

(** A descriptor that no later descriptor shadows is the last of its
    name. *)
Lemma last_with_index l i d :
  l !! i = Some d →
  (∀ j d', i < j → l !! j = Some d' → key d' ≠ key d) →
  last_with key (key d) l = Some d.
Proof.
  revert i. induction l as [|x l IH]; intros i Hi Hlater; [done|].
  rewrite last_with_cons. destruct i as [|i]; simpl in Hi.
  - injection Hi as ->.
    assert (last_with key (key d) l = None) as ->.
    { apply last_with_None. intros d' Hd' Hkey.
      apply list_elem_of_lookup in Hd' as [j Hj].
      apply (Hlater (S j) d'); [lia|done|done]. }
    by rewrite decide_True.
  - rewrite (IH i); [done|done|].
    intros j d' Hij Hj. apply (Hlater (S j) d'); [lia|done].
Qed.

Lemma last_with_filter (P : A → Prop) `{!∀ x, Decision (P x)} n l d :
  last_with key n l = Some d → P d →
  last_with key n (filter P l) = Some d.
Proof.
  induction l as [|x l IH]; [done|].
  rewrite last_with_cons. intros Hlast HP.
  destruct (last_with key n l) as [d'|] eqn:Hl.
  - injection Hlast as ->. specialize (IH eq_refl HP).
    rewrite filter_cons. destruct (decide (P x)); [|done].
    by rewrite last_with_cons, IH.
  - destruct (decide (key x = n)) as [Hkey|]; [|done].
    injection Hlast as ->. rewrite filter_cons_True by done.
    rewrite last_with_cons, decide_True by done.
    assert (last_with key n (filter P l) = None) as ->; [|done].
    apply last_with_None. intros d' Hd'.
    apply list_elem_of_filter in Hd' as [_ Hd'].
    rewrite last_with_None in Hl. by apply Hl.
Qed.

End LastWith.

Lemma last_with_fmap {A B : Type} (f : A → B) (key : B → string) n l :
  last_with key n (f <$> l) = f <$> last_with (key ∘ f) n l.
Proof.
  induction l as [|x l IH]; [done|].
  rewrite fmap_cons, !last_with_cons, IH.
  destruct (last_with (key ∘ f) n l); [done|]. simpl.
  by destruct (decide (key (f x) = n)).
Qed.

(** ** Dictionaries built by successive assignments *)

Section Declare.

Context {A D : Type} (key : A → string) (val : A → D).

Lemma declare_cons d l m :
  declare key val (d :: l) m = declare key val l (<[key d := val d]> m).
Proof. reflexivity. Qed.

(** The entry under a name is the one written for the last descriptor
    with that name. *)
Lemma declare_lookup l m n :
  declare key val l m !! n =
    match last_with key n l with
    | Some d => Some (val d)
    | None => m !! n
    end.
Proof.
  revert m. induction l as [|d l IH]; intros m; [done|].
  rewrite declare_cons, IH, last_with_cons.
  destruct (last_with key n l); [done|].
  rewrite lookup_insert. by destruct (decide (key d = n)).
Qed.

Lemma declare_dom l m :
  dom (declare key val l m) = dom m ∪ list_to_set (key <$> l).
Proof.
  revert m. induction l as [|d l IH]; intros m.
  - simpl. by rewrite (right_id_L ∅ (∪)).
  - rewrite declare_cons, IH, dom_insert_L, fmap_cons. simpl.
    by rewrite (comm_L (∪) {[key d]} (dom m)), (assoc_L (∪)).
Qed.

End Declare.

(** ** Default channels and the loops *)

Section Loops.

Context {PyType : Type}.

Implicit Types (t : PyType) (h k : oid) (n : string).
Implicit Types (dic : gmap string (@Channel PyType)).
Implicit Types (icp : gmap string (@ChannelParameter PyType)).

Lemma create_channel_at t h :
  _create_channel_with_empty_artifact t h = (empty_channel_at t h, S (S h)).
Proof. reflexivity. Qed.

Lemma default_channels_cons n t rest dic h :
  default_channels ((n, t) :: rest) dic h =
    default_channels rest (<[n := empty_channel_at t h]> dic) (S (S h)).
Proof. reflexivity. Qed.

(** Every default channel costs two identifiers: its artifact and the
    channel itself. *)
Lemma default_channels_next (l : list (string * PyType)) dic h :
  (default_channels l dic h).2 = h + 2 * length l.
Proof.
  revert dic h. induction l as [|[n t] l IH]; intros dic h.
  - simpl. lia.
  - rewrite default_channels_cons, IH. simpl. lia.
Qed.

(** The channel under a name is the one created for the last pair with
    that name; it is made of objects allocated by the loop. *)
Lemma default_channels_lookup (l : list (string * PyType)) dic h n :
  match last_with fst n l with
  | Some p =>
      ∃ k, (default_channels l dic h).1 !! n = Some (empty_channel_at p.2 k)
           ∧ (h ≤ k)%nat ∧ (k + 2 ≤ h + 2 * length l)%nat
  | None => (default_channels l dic h).1 !! n = dic !! n
  end.
Proof.
  revert dic h. induction l as [|[n' t] l IH]; intros dic h; [done|].
  rewrite default_channels_cons, last_with_cons.
  specialize (IH (<[n' := empty_channel_at t h]> dic) (S (S h))).
  destruct (last_with fst n l) as [p|].
  - destruct IH as (k & Hk & Hlo & Hhi). exists k. simpl. split; [done|lia].
  - simpl. destruct (decide (n' = n)) as [->|Hne].
    + exists h. rewrite IH, lookup_insert_eq. simpl. split; [done|lia].
    + by rewrite IH, lookup_insert_ne.
Qed.

Lemma default_channels_dom (l : list (string * PyType)) dic h :
  dom (default_channels l dic h).1 = dom dic ∪ list_to_set l.*1.
Proof.
  revert dic h. induction l as [|[n t] l IH]; intros dic h.
  - simpl. by rewrite (right_id_L ∅ (∪)).
  - rewrite default_channels_cons, IH, dom_insert_L, fmap_cons. simpl.
    by rewrite (comm_L (∪) {[n]} (dom dic)), (assoc_L (∪)).
Qed.

(** Up to object identity, the channels do not depend on the allocation
    counter. *)
Lemma default_channels_forget (l : list (string * PyType)) dic dic' h h' :
  forget_channel <$> dic = forget_channel <$> dic' →
  forget_channel <$> (default_channels l dic h).1 =
  forget_channel <$> (default_channels l dic' h').1.
Proof.
  revert dic dic' h h'.
  induction l as [|[n t] l IH]; intros dic dic' h h' Hdic; [done|].
  rewrite !default_channels_cons. apply IH.
  rewrite !fmap_insert. by f_equal.
Qed.

(** The loops of the factory are these assignments. *)
Lemma inputs_loop_eq (l : list (@InputSpec PyType)) icp dic h :
  inputs_loop l icp dic h =
    (declare name channel_declaration l icp,
     (default_channels (optional_inputs l) dic h).1,
     (default_channels (optional_inputs l) dic h).2).
Proof.
  revert icp dic h. induction l as [|d l IH]; intros icp dic h; [done|].
  simpl. unfold optional_inputs. rewrite filter_cons.
  destruct (optional d) eqn:Hopt; simpl.
  - unfold alloc_bind. by rewrite create_channel_at, IH.
  - by rewrite IH.
Qed.

Lemma outputs_loop_eq (l : list (@OutputSpec PyType)) icp dic h :
  outputs_loop l icp dic h =
    (declare output_name output_declaration l icp,
     (default_channels (output_pairs l) dic h).1,
     (default_channels (output_pairs l) dic h).2).
Proof.
  revert icp dic h. induction l as [|d l IH]; intros icp dic h; [done|].
  simpl. unfold alloc_bind. by rewrite create_channel_at, IH.
Qed.

Lemma parameters_loop_eq (l : list (@InputSpec PyType))
    (m : gmap string (@ExecutionParameter PyType)) :
  parameters_loop l m = declare name parameter_declaration l m.
Proof. revert m. induction l as [|d l IH]; intros m; [done|]. apply IH. Qed.

(** The factory, with its loops in closed form. *)
Lemma create_container_component_eq nm
    (inputs : option (list (@InputSpec PyType)))
    (outputs : option (list (@OutputSpec PyType)))
    (parameters : option (list (@InputSpec PyType)))
    img (cmd : list CommandlineArgumentType) h :
  let din := default_channels (optional_inputs (or_empty_list inputs)) ∅ h in
  let dout := default_channels (output_pairs (or_empty_list outputs)) ∅ din.2 in
  create_container_component nm inputs outputs parameters img cmd h =
    ({| class_oid := S dout.2;
        class_name := or_text nm "Component";
        SPEC_CLASS :=
          {| spec_class_oid := dout.2;
             spec_class_name := or_text nm "Component" +:+ "Spec";
             PARAMETERS :=
               declare name parameter_declaration (or_empty_list parameters) ∅;
             INPUTS :=
               declare name channel_declaration (or_empty_list inputs) ∅;
             OUTPUTS :=
               declare output_name output_declaration
                 (or_empty_list outputs) ∅ |};
        EXECUTOR_SPEC := {| image := img; command := cmd |};
        init_closure :=
          {| default_input_channels := din.1; output_channels := dout.1 |} |},
     S (S dout.2)).
Proof.
  intros din dout. unfold create_container_component, alloc_bind.
  rewrite inputs_loop_eq. fold din.
  rewrite outputs_loop_eq. fold dout.
  by rewrite parameters_loop_eq.
Qed.

End Loops.

(** ** The generated classes *)

Section Factory.

Context {PyType : Type}.

Implicit Types (nm img : string) (h : oid).
Implicit Types (inputs parameters : option (list (@InputSpec PyType))).
Implicit Types (outputs : option (list (@OutputSpec PyType))).
Implicit Types (cmd : list CommandlineArgumentType).

Lemma factory_INPUTS nm inputs outputs parameters img cmd h :
  INPUTS (SPEC_CLASS
    (create_container_component nm inputs outputs parameters img cmd h).1) =
  declare name channel_declaration (or_empty_list inputs) ∅.
Proof. by rewrite create_container_component_eq. Qed.

Lemma factory_OUTPUTS nm inputs outputs parameters img cmd h :
  OUTPUTS (SPEC_CLASS
    (create_container_component nm inputs outputs parameters img cmd h).1) =
  declare output_name output_declaration (or_empty_list outputs) ∅.
Proof. by rewrite create_container_component_eq. Qed.

Lemma factory_PARAMETERS nm inputs outputs parameters img cmd h :
  PARAMETERS (SPEC_CLASS
    (create_container_component nm inputs outputs parameters img cmd h).1) =
  declare name parameter_declaration (or_empty_list parameters) ∅.
Proof. by rewrite create_container_component_eq. Qed.

Lemma factory_default_input_channels nm inputs outputs parameters img cmd h :
  default_input_channels (init_closure
    (create_container_component nm inputs outputs parameters img cmd h).1) =
  (default_channels (optional_inputs (or_empty_list inputs)) ∅ h).1.
Proof. by rewrite create_container_component_eq. Qed.

Lemma factory_output_channels nm inputs outputs parameters img cmd h :
  output_channels (init_closure
    (create_container_component nm inputs outputs parameters img cmd h).1) =
  (default_channels (output_pairs (or_empty_list outputs)) ∅
     (h + 2 * length (optional_inputs (or_empty_list inputs)))).1.
Proof.
  rewrite create_container_component_eq. simpl.
  by rewrite default_channels_next.
Qed.

(** The identifiers the factory consumes: two for every default
    channel and one for each of the two classes. *)
Lemma factory_next nm inputs outputs parameters img cmd h :
  (create_container_component nm inputs outputs parameters img cmd h).2 =
  h + 2 * length (optional_inputs (or_empty_list inputs))
    + 2 * length (output_pairs (or_empty_list outputs)) + 2.
Proof.
  rewrite create_container_component_eq. simpl.
  rewrite !default_channels_next. lia.
Qed.

(** What the generated classes hold is what the three loops collect. *)
Lemma factory_loops nm inputs outputs parameters img cmd h :
  let cls :=
    (create_container_component nm inputs outputs parameters img cmd h).1 in
  let collected_inputs := inputs_loop (or_empty_list inputs) ∅ ∅ h in
  let collected_outputs :=
    outputs_loop (or_empty_list outputs) ∅ ∅ collected_inputs.2 in
  PARAMETERS (SPEC_CLASS cls) = parameters_loop (or_empty_list parameters) ∅
  ∧ INPUTS (SPEC_CLASS cls) = collected_inputs.1.1
  ∧ OUTPUTS (SPEC_CLASS cls) = collected_outputs.1.1
  ∧ default_input_channels (init_closure cls) = collected_inputs.1.2
  ∧ output_channels (init_closure cls) = collected_outputs.1.2.
Proof.
  simpl. rewrite create_container_component_eq, inputs_loop_eq,
    outputs_loop_eq, parameters_loop_eq. done.
Qed.

Lemma factory_class_oids nm inputs outputs parameters img cmd h :
  let r := create_container_component nm inputs outputs parameters img cmd h in
  class_oid r.1 = S (spec_class_oid (SPEC_CLASS r.1)) ∧
  r.2 = S (class_oid r.1).
Proof. by rewrite create_container_component_eq. Qed.

End Factory.

(** ** The constructor of a generated class *)

Section Constructor.

Context {PyType : Type}.

Implicit Types (env : @InitClosure PyType) (cls : @ComponentClass PyType).
Implicit Types (kwargs : gmap string (@PyValue PyType)) (n : string).

(** Later sources win: the caller's value, else the default output
    channel, else the default input channel. *)
Lemma merged_arguments_lookup env kwargs n :
  merged_arguments env kwargs !! n =
    match kwargs !! n with
    | Some v => Some v
    | None =>
        match output_channels env !! n with
        | Some c => Some (PyChannel c)
        | None => PyChannel <$> default_input_channels env !! n
        end
    end.
Proof.
  unfold merged_arguments, update.
  rewrite !lookup_union, lookup_empty, !lookup_fmap.
  destruct (kwargs !! n), (output_channels env !! n),
    (default_input_channels env !! n); reflexivity.
Qed.

Lemma new_component_arguments cls kwargs :
  spec_arguments (spec (new_component cls kwargs)) =
  merged_arguments (init_closure cls) (delete "instance_name" kwargs).
Proof. reflexivity. Qed.


Lemma new_component_spec_class cls kwargs :
  spec_class (spec (new_component cls kwargs)) = SPEC_CLASS cls.
Proof. reflexivity. Qed.

Lemma new_component_lookup cls kwargs n :
  spec_arguments (spec (new_component cls kwargs)) !! n =
    match (if decide (n = "instance_name") then None else kwargs !! n) with
    | Some v => Some v
    | None =>
        match output_channels (init_closure cls) !! n with
        | Some c => Some (PyChannel c)
        | None => PyChannel <$> default_input_channels (init_closure cls) !! n
        end
    end.
Proof.
  rewrite new_component_arguments, merged_arguments_lookup.
  destruct (decide (n = "instance_name")) as [->|Hne].
  - by rewrite lookup_delete_eq.
  - by rewrite lookup_delete_ne.
Qed.

(** Up to object identity, the merged arguments depend on the default
    channels up to object identity only. *)
Lemma merged_arguments_forget env env' kwargs :
  forget_channel <$> default_input_channels env =
    forget_channel <$> default_input_channels env' →
  forget_channel <$> output_channels env =
    forget_channel <$> output_channels env' →
  forget_value <$> merged_arguments env kwargs =
    forget_value <$> merged_arguments env' kwargs.
Proof.
  intros Hin Hout. apply map_eq. intros n.
  rewrite !lookup_fmap, !merged_arguments_lookup.
  destruct (kwargs !! n); [done|].
  apply (f_equal (.!! n)) in Hin, Hout. rewrite !lookup_fmap in Hin, Hout.
  destruct (output_channels env !! n), (output_channels env' !! n),
    (default_input_channels env !! n), (default_input_channels env' !! n);
    simpl in *; congruence.
Qed.

End Constructor.




(** ** Descriptors and what is registered for them *)

Section Descriptors.

Context {PyType : Type}.

Implicit Types (nm img n : string) (h : oid).
Implicit Types (inputs parameters : option (list (@InputSpec PyType))).
Implicit Types (outputs : option (list (@OutputSpec PyType))).
Implicit Types (cmd : list CommandlineArgumentType).

Lemma optional_inputs_last (l : list (@InputSpec PyType)) n d :
  last_with name n l = Some d → optional d = true →
  last_with fst n (optional_inputs l) = Some (name d, type d).
Proof.
  intros Hlast Hopt. unfold optional_inputs. rewrite last_with_fmap.
  change (fst ∘ _) with (@name PyType).
  by rewrite (last_with_filter name (λ d, optional d = true) n l d).
Qed.

Lemma optional_inputs_names (l : list (@InputSpec PyType)) n :
  n ∈ (optional_inputs l).*1 ↔ ∃ d, d ∈ l ∧ name d = n ∧ optional d = true.
Proof.
  unfold optional_inputs. rewrite <- list_fmap_compose, list_elem_of_fmap.
  split.
  - intros (d & -> & Hd). apply list_elem_of_filter in Hd as [Hopt Hd].
    by exists d.
  - intros (d & Hd & <- & Hopt). exists d. split; [done|].
    by apply list_elem_of_filter.
Qed.

Lemma output_pairs_last (l : list (@OutputSpec PyType)) n :
  last_with fst n (output_pairs l) =
  (λ d, (output_name d, output_type d)) <$> last_with output_name n l.
Proof. unfold output_pairs. by rewrite last_with_fmap. Qed.

Lemma output_pairs_names (l : list (@OutputSpec PyType)) :
  (output_pairs l).*1 = output_name <$> l.
Proof. unfold output_pairs. by rewrite <- list_fmap_compose. Qed.

(** The default input channel of a name is built for the last optional
    descriptor of that name. *)
Lemma factory_default_input_last nm inputs outputs parameters img cmd h n d :
  last_with name n (or_empty_list inputs) = Some d → optional d = true →
  ∃ k, default_input_channels (init_closure
         (create_container_component nm inputs outputs parameters
            img cmd h).1) !! n
       = Some (_create_channel_with_empty_artifact (type d) k).1.
Proof.
  intros Hlast Hopt. rewrite factory_default_input_channels.
  pose proof (default_channels_lookup
    (optional_inputs (or_empty_list inputs)) ∅ h n) as Hlookup.
  rewrite (optional_inputs_last _ n d Hlast Hopt) in Hlookup.
  destruct Hlookup as (k & Hk & _). by exists k.
Qed.

Lemma factory_default_input_is_Some nm inputs outputs parameters img cmd h n :
  is_Some (default_input_channels (init_closure
    (create_container_component nm inputs outputs parameters img cmd h).1)
    !! n)
  ↔ ∃ d, d ∈ or_empty_list inputs ∧ name d = n ∧ optional d = true.
Proof.
  rewrite <- elem_of_dom, factory_default_input_channels,
    default_channels_dom, dom_empty_L, elem_of_union, elem_of_list_to_set,
    optional_inputs_names.
  split; [intros [Hn|Hd]; [by apply elem_of_empty in Hn|done]|by right].
Qed.

Lemma factory_output_channel_last nm inputs outputs parameters img cmd h n d :
  last_with output_name n (or_empty_list outputs) = Some d →
  ∃ k, output_channels (init_closure
         (create_container_component nm inputs outputs parameters
            img cmd h).1) !! n
       = Some (_create_channel_with_empty_artifact (output_type d) k).1.
Proof.
  intros Hlast. rewrite factory_output_channels.
  pose proof (default_channels_lookup
    (output_pairs (or_empty_list outputs)) ∅
    (h + 2 * length (optional_inputs (or_empty_list inputs))) n) as Hlookup.
  rewrite output_pairs_last, Hlast in Hlookup.
  destruct Hlookup as (k & Hk & _). by exists k.
Qed.

Lemma factory_output_channels_dom nm inputs outputs parameters img cmd h :
  dom (output_channels (init_closure
    (create_container_component nm inputs outputs parameters img cmd h).1))
  = list_to_set (output_name <$> or_empty_list outputs).
Proof.
  rewrite factory_output_channels, default_channels_dom, dom_empty_L,
    output_pairs_names.
  apply (left_id_L ∅ (∪)).
Qed.

Lemma declare_empty_dom {A D : Type} (key : A → string) (val : A → D) l :
  dom (declare key val l ∅) = list_to_set (key <$> l).
Proof. rewrite declare_dom, dom_empty_L. apply (left_id_L ∅ (∪)). Qed.


Lemma declare_empty_last {A D : Type} (key : A → string) (val : A → D) l n d :
  last_with key n l = Some d → declare key val l ∅ !! n = Some (val d).
Proof. intros Hlast. by rewrite declare_lookup, Hlast. Qed.

End Descriptors.

(** C2 (as amended).  For every [inputs] list, the input-channel
    declarations are keyed by exactly the descriptors' names, and every
    input descriptor that no later descriptor of the list shadows by name
    has its declaration under its name, typed with its type; if it is
    optional, the default channel under its name is the channel that
    [_create_channel_with_empty_artifact] returns for its type, which
    wraps exactly one artifact, the instance of that type.  A default
    channel exists under a name exactly when some input descriptor of
    that name is optional. *)
Theorem input_descriptors_declared {PyType : Type} nm
    (inputs : list (@InputSpec PyType))
    (outputs : option (list (@OutputSpec PyType)))
    (parameters : option (list (@InputSpec PyType)))
    img (cmd : list CommandlineArgumentType) (h : oid) (i : nat) d :
  inputs !! i = Some d →
  (∀ j d', i < j → inputs !! j = Some d' → name d' ≠ name d) →
  let cls :=
    (create_container_component nm (Some inputs) outputs parameters
       img cmd h).1 in
  INPUTS (SPEC_CLASS cls) !! name d = Some {| channel_parameter_type := type d |}
  ∧ dom (INPUTS (SPEC_CLASS cls)) = list_to_set (name <$> inputs)
  ∧ (optional d = true →
     ∃ k c, default_input_channels (init_closure cls) !! name d = Some c
            ∧ c = (_create_channel_with_empty_artifact (type d) k).1
            ∧ channel_type c = type d
            ∧ channel_artifacts c = [(instantiate (type d) k).1])
  ∧ (∀ n, is_Some (default_input_channels (init_closure cls) !! n)
          ↔ ∃ d', d' ∈ inputs ∧ name d' = n ∧ optional d' = true).
Proof.
  intros Hi Hlater cls. subst cls.
  pose proof (last_with_index name inputs i d Hi Hlater) as Hlast.
  split; [|split; [|split]].
  - rewrite factory_INPUTS. by apply (declare_empty_last name channel_declaration).
  - rewrite factory_INPUTS. apply declare_empty_dom.
  - intros Hopt.
    destruct (factory_default_input_last nm (Some inputs) outputs parameters
                img cmd h (name d) d Hlast Hopt) as [k Hk].
    exists k, (_create_channel_with_empty_artifact (type d) k).1. by rewrite Hk.
  - intros n. apply factory_default_input_is_Some.
Qed.

Lemma input_descriptors_declared_witness :
  INPUTS (SPEC_CLASS validator) !! "schema"
    = Some {| channel_parameter_type := "Schema" |}
  ∧ ∃ k c, default_input_channels (init_closure validator) !! "schema" = Some c
           ∧ c = (_create_channel_with_empty_artifact "Schema" k).1
           ∧ channel_type c = "Schema"
           ∧ channel_artifacts c = [(instantiate "Schema" k).1].
Proof.
  assert (∀ j d', 1 < j →
            [Input "data" "Examples" false; Input "schema" "Schema" true] !! j
              = Some d' →
            name d' ≠ name (Input "schema" "Schema" true)) as Hlater.
  { intros [|[|j]] d' Hj Hd'; [lia|lia|discriminate Hd']. }
  destruct (input_descriptors_declared "Validator"
              [Input "data" "Examples" false; Input "schema" "Schema" true]
              None None "img" [Literal "validate"] 0 1
              (Input "schema" "Schema" true) eq_refl Hlater)
    as (Hdecl & _ & Hdefault & _).
  split; [exact Hdecl|exact (Hdefault eq_refl)].
Defined.

(** C2, as stated, fails when two input descriptors share a name: in
    [shadowed_inputs] the first descriptor has no declaration of its own
    type, and the second, which is not optional, has a default channel
    under its name. *)
Lemma input_descriptors_counterexample :
  ¬ (∀ d, d ∈ shadowed_inputs →
       INPUTS (SPEC_CLASS shadowed) !! name d
         = Some {| channel_parameter_type := type d |})
  ∧ ¬ (∀ d, d ∈ shadowed_inputs →
         is_Some (default_input_channels (init_closure shadowed) !! name d) →
         optional d = true).
Proof.
  split; intros Hclaim.
  - specialize (Hclaim (Input "x" "Examples" true)).
    assert (Input "x" "Examples" true ∈ shadowed_inputs) as Hin by by left.
    specialize (Hclaim Hin). vm_compute in Hclaim. discriminate Hclaim.
  - specialize (Hclaim (Input "x" "Schema" false)).
    assert (Input "x" "Schema" false ∈ shadowed_inputs) as Hin
      by (right; left).
    assert (is_Some (default_input_channels (init_closure shadowed)
                       !! name (Input "x" "Schema" false))) as Hsome
      by (vm_compute; eauto).
    specialize (Hclaim Hin Hsome). discriminate Hclaim.
Qed.

(** C3 (as amended).  For every [outputs] list, the output-channel
    declarations are keyed by exactly the descriptors' names, every name
    that is declared has a default channel, and every output descriptor
    that no later descriptor of the list shadows by name has its
    declaration under its name, typed with its type, and, whatever the
    descriptor, a default channel under its name: the channel that
    [_create_channel_with_empty_artifact] returns for its type, which
    wraps exactly one artifact, the instance of that type. *)
Theorem output_descriptors_declared {PyType : Type} nm
    (inputs : option (list (@InputSpec PyType)))
    (outputs : list (@OutputSpec PyType))
    (parameters : option (list (@InputSpec PyType)))
    img (cmd : list CommandlineArgumentType) (h : oid) (i : nat) d :
  outputs !! i = Some d →
  (∀ j d', i < j → outputs !! j = Some d' → output_name d' ≠ output_name d) →
  let cls :=
    (create_container_component nm inputs (Some outputs) parameters
       img cmd h).1 in
  OUTPUTS (SPEC_CLASS cls) !! output_name d
    = Some {| channel_parameter_type := output_type d |}
  ∧ dom (OUTPUTS (SPEC_CLASS cls)) = list_to_set (output_name <$> outputs)
  ∧ dom (output_channels (init_closure cls)) = dom (OUTPUTS (SPEC_CLASS cls))
  ∧ ∃ k c, output_channels (init_closure cls) !! output_name d = Some c
           ∧ c = (_create_channel_with_empty_artifact (output_type d) k).1
           ∧ channel_type c = output_type d
           ∧ channel_artifacts c = [(instantiate (output_type d) k).1].
Proof.
  intros Hi Hlater cls. subst cls.
  pose proof (last_with_index output_name outputs i d Hi Hlater) as Hlast.
  split; [|split; [|split]].
  - rewrite factory_OUTPUTS.
    by apply (declare_empty_last output_name output_declaration).
  - rewrite factory_OUTPUTS. apply declare_empty_dom.
  - rewrite factory_output_channels_dom, factory_OUTPUTS.
    symmetry. apply declare_empty_dom.
  - destruct (factory_output_channel_last nm inputs (Some outputs) parameters
                img cmd h (output_name d) d Hlast) as [k Hk].
    exists k, (_create_channel_with_empty_artifact (output_type d) k).1.
    by rewrite Hk.
Qed.

Lemma output_descriptors_declared_witness :
  OUTPUTS (SPEC_CLASS trainer) !! "model"
    = Some {| channel_parameter_type := "Model" |}
  ∧ ∃ k c, output_channels (init_closure trainer) !! "model" = Some c
           ∧ c = (_create_channel_with_empty_artifact "Model" k).1
           ∧ channel_type c = "Model"
           ∧ channel_artifacts c = [(instantiate "Model" k).1].
Proof.
  assert (∀ j d', 0 < j → [Output "model" "Model"] !! j = Some d' →
            output_name d' ≠ output_name (Output "model" "Model")) as Hlater.
  { intros [|j] d' Hj Hd'; [lia|discriminate Hd']. }
  destruct (output_descriptors_declared "Trainer"
              (Some [Input "data" "Dataset" false]) [Output "model" "Model"]
              (Some []) "img" [Literal "run"] 0 0 (Output "model" "Model")
              eq_refl Hlater)
    as (Hdecl & _ & _ & Hdefault).
  split; [exact Hdecl|exact Hdefault].
Defined.

(** C3, as stated, fails when two output descriptors share a name: for
    the first descriptor of [shadowed_outputs] there is neither a
    declaration nor a default channel of its type. *)
Lemma output_descriptors_counterexample :
  ¬ (∀ d, d ∈ shadowed_outputs →
       OUTPUTS (SPEC_CLASS remodel) !! output_name d
         = Some {| channel_parameter_type := output_type d |})
  ∧ ¬ (∀ d, d ∈ shadowed_outputs →
         ∃ c, output_channels (init_closure remodel) !! output_name d = Some c
              ∧ channel_type c = output_type d).
Proof.
  assert (Output "model" "Model" ∈ shadowed_outputs) as Hin by by left.
  split; intros Hclaim; specialize (Hclaim (Output "model" "Model") Hin).
  - vm_compute in Hclaim. discriminate Hclaim.
  - destruct Hclaim as (c & Hc & Htype). vm_compute in Hc.
    injection Hc as <-. discriminate Htype.
Qed.

(** C5 (as amended).  For every [parameters] list, the execution-parameter
    declarations are keyed by exactly the descriptors' names, and every
    parameter descriptor that no later descriptor of the list shadows by
    name has its declaration under its name, typed with its type.  No
    default is registered for a parameter: the default channels, the
    channel declarations and the objects allocated are those of the same
    call without parameters. *)
Theorem parameter_descriptors_declared {PyType : Type} nm
    (inputs : option (list (@InputSpec PyType)))
    (outputs : option (list (@OutputSpec PyType)))
    (parameters : list (@InputSpec PyType))
    img (cmd : list CommandlineArgumentType) (h : oid) (i : nat) d :
  parameters !! i = Some d →
  (∀ j d', i < j → parameters !! j = Some d' → name d' ≠ name d) →
  let made :=
    create_container_component nm inputs outputs (Some parameters) img cmd h in
  let bare := create_container_component nm inputs outputs None img cmd h in
  PARAMETERS (SPEC_CLASS made.1) !! name d
    = Some {| execution_parameter_type := type d |}
  ∧ dom (PARAMETERS (SPEC_CLASS made.1)) = list_to_set (name <$> parameters)
  ∧ init_closure made.1 = init_closure bare.1
  ∧ INPUTS (SPEC_CLASS made.1) = INPUTS (SPEC_CLASS bare.1)
  ∧ OUTPUTS (SPEC_CLASS made.1) = OUTPUTS (SPEC_CLASS bare.1)
  ∧ made.2 = bare.2.
Proof.
  intros Hi Hlater made bare. subst made bare.
  pose proof (last_with_index name parameters i d Hi Hlater) as Hlast.
  split; [|split].
  - rewrite factory_PARAMETERS.
    by apply (declare_empty_last name parameter_declaration).
  - rewrite factory_PARAMETERS. apply declare_empty_dom.
  - by rewrite !create_container_component_eq.
Qed.

Lemma parameter_descriptors_declared_witness :
  PARAMETERS (SPEC_CLASS counter) !! "num_training_steps"
    = Some {| execution_parameter_type := "int" |}
  ∧ init_closure counter
    = {| default_input_channels := ∅; output_channels := ∅ |}.
Proof.
  assert (∀ j d', 0 < j →
            [Input "num_training_steps" "int" false] !! j = Some d' →
            name d' ≠ name (Input "num_training_steps" "int" false))
    as Hlater.
  { intros [|j] d' Hj Hd'; [lia|discriminate Hd']. }
  destruct (parameter_descriptors_declared "Trainer" None None
              [Input "num_training_steps" "int" false]
              "img" [Literal "run"] 0 0
              (Input "num_training_steps" "int" false) eq_refl Hlater)
    as (Hdecl & _ & Hclosure & _).
  split; [exact Hdecl|exact Hclosure].
Defined.

(** C5, as stated, fails when two parameter descriptors share a name:
    the first descriptor of [shadowed_parameters] has no declaration of
    its own type. *)
Lemma parameter_descriptors_counterexample :
  ¬ (∀ d, d ∈ shadowed_parameters →
       PARAMETERS (SPEC_CLASS stepper) !! name d
         = Some {| execution_parameter_type := type d |}).
Proof.
  intros Hclaim. specialize (Hclaim (Input "steps" "int" false)).
  assert (Input "steps" "int" false ∈ shadowed_parameters) as Hin by by left.
  specialize (Hclaim Hin). vm_compute in Hclaim. discriminate Hclaim.
Qed.



(** C4.  The specification class holds as PARAMETERS, INPUTS and OUTPUTS
    exactly the three dictionaries accumulated by the loops, and the
    component class is bound to that specification class, which is named
    after it and is the one its constructor instantiates, and to an
    executor descriptor that carries exactly the given image and command
    line. *)
Theorem classes_hold_accumulated_declarations {PyType : Type} nm
    (inputs : option (list (@InputSpec PyType)))
    (outputs : option (list (@OutputSpec PyType)))
    (parameters : option (list (@InputSpec PyType)))
    img (cmd : list CommandlineArgumentType) (h : oid)
    (kwargs : gmap string (@PyValue PyType)) :
  let cls :=
    (create_container_component nm inputs outputs parameters img cmd h).1 in
  let collected_inputs := inputs_loop (or_empty_list inputs) ∅ ∅ h in
  let collected_outputs :=
    outputs_loop (or_empty_list outputs) ∅ ∅ collected_inputs.2 in
  PARAMETERS (SPEC_CLASS cls) = parameters_loop (or_empty_list parameters) ∅
  ∧ INPUTS (SPEC_CLASS cls) = collected_inputs.1.1
  ∧ OUTPUTS (SPEC_CLASS cls) = collected_outputs.1.1
  ∧ spec_class_name (SPEC_CLASS cls) = class_name cls +:+ "Spec"
  ∧ spec_class (spec (new_component cls kwargs)) = SPEC_CLASS cls
  ∧ image (EXECUTOR_SPEC cls) = img
  ∧ command (EXECUTOR_SPEC cls) = cmd.
Proof.
  intros cls collected_inputs collected_outputs.
  destruct (factory_loops nm inputs outputs parameters img cmd h)
    as (Hparameters & Hinputs & Houtputs & _).
  split; [exact Hparameters|]. split; [exact Hinputs|].
  split; [exact Houtputs|].
  split; [|split; [apply new_component_spec_class|]].
  all: subst cls; by rewrite create_container_component_eq.
Qed.




(** C8.  Each of [inputs], [outputs] and [parameters] may be absent or
    empty: the factory, a total function, returns a class, and the
    declarations and default channels that correspond to such a list are
    empty. *)
Theorem absent_or_empty_lists {PyType : Type} nm
    (inputs : option (list (@InputSpec PyType)))
    (outputs : option (list (@OutputSpec PyType)))
    (parameters : option (list (@InputSpec PyType)))
    img (cmd : list CommandlineArgumentType) (h : oid) :
  let cls :=
    (create_container_component nm inputs outputs parameters img cmd h).1 in
  (absent_or_empty inputs = true →
   INPUTS (SPEC_CLASS cls) = ∅ ∧ default_input_channels (init_closure cls) = ∅)
  ∧ (absent_or_empty outputs = true →
     OUTPUTS (SPEC_CLASS cls) = ∅ ∧ output_channels (init_closure cls) = ∅)
  ∧ (absent_or_empty parameters = true → PARAMETERS (SPEC_CLASS cls) = ∅).
Proof.
  intros cls. subst cls.
  rewrite factory_INPUTS, factory_OUTPUTS, factory_PARAMETERS,
    factory_default_input_channels, factory_output_channels.
  split; [|split].
  - by destruct inputs as [[|]|].
  - by destruct outputs as [[|]|].
  - by destruct parameters as [[|]|].
Qed.

Lemma absent_or_empty_lists_witness :
  (INPUTS (SPEC_CLASS idle) = ∅ ∧ default_input_channels (init_closure idle) = ∅)
  ∧ (OUTPUTS (SPEC_CLASS idle) = ∅ ∧ output_channels (init_closure idle) = ∅)
  ∧ PARAMETERS (SPEC_CLASS idle) = ∅.
Proof.
  destruct (absent_or_empty_lists (PyType := string) "Idle" (Some []) None
              (Some []) "img" [Literal "sleep"] 0)
    as (Hinputs & Houtputs & Hparameters).
  split; [exact (Hinputs eq_refl)|].
  split; [exact (Houtputs eq_refl)|exact (Hparameters eq_refl)].
Defined.

(** ** The name [instance_name] *)





(** ** Object identity *)

Section Identity.

Context {PyType : Type}.

Implicit Types (nm img : string) (h i : oid).
Implicit Types (inputs parameters : option (list (@InputSpec PyType))).
Implicit Types (outputs : option (list (@OutputSpec PyType))).
Implicit Types (cmd : list CommandlineArgumentType).

Lemma elem_of_channels_oids (m : gmap string (@Channel PyType)) i :
  i ∈ channels_oids m ↔ ∃ n c, m !! n = Some c ∧ i ∈ channel_oids c.
Proof.
  unfold channels_oids. rewrite elem_of_union_list. split.
  - intros (X & HX & Hi).
    apply list_elem_of_fmap in HX as ([n c] & -> & Hnc).
    apply elem_of_map_to_list in Hnc. by exists n, c.
  - intros (n & c & Hm & Hi). exists (channel_oids c). split; [|done].
    apply list_elem_of_fmap. exists (n, c). split; [done|].
    by apply elem_of_map_to_list.
Qed.

(** The default channels are made of the objects that the loop
    allocates. *)
Lemma default_channels_oids (l : list (string * PyType)) h i :
  i ∈ channels_oids (default_channels l ∅ h).1 →
  h ≤ i < h + 2 * length l.
Proof.
  intros (n & c & Hc & Hi)%elem_of_channels_oids.
  pose proof (default_channels_lookup l ∅ h n) as Hlookup.
  destruct (last_with fst n l) as [p|].
  - destruct Hlookup as (k & Hk & Hlo & Hhi).
    rewrite Hk in Hc. injection Hc as <-.
    unfold channel_oids, empty_channel_at in Hi. simpl in Hi.
    rewrite !elem_of_union, !elem_of_singleton, elem_of_empty in Hi. lia.
  - by rewrite Hlookup, lookup_empty in Hc.
Qed.

(** A generated class is made of objects allocated by its factory
    call. *)
Lemma factory_oids_bounds nm inputs outputs parameters img cmd h i :
  let r := create_container_component nm inputs outputs parameters img cmd h in
  i ∈ class_oids r.1 → h ≤ i < r.2.
Proof.
  intros r. subst r. unfold class_oids.
  pose proof (factory_class_oids nm inputs outputs parameters img cmd h)
    as [Hcls Hnext]. simpl in Hcls, Hnext.
  pose proof (factory_next nm inputs outputs parameters img cmd h) as Hcount.
  rewrite !elem_of_union, !elem_of_singleton.
  rewrite factory_default_input_channels, factory_output_channels.
  intros [[[->| ->]|Hi]|Hi].
  - lia.
  - lia.
  - apply default_channels_oids in Hi. lia.
  - apply default_channels_oids in Hi. lia.
Qed.

End Identity.

(** C7.  Two calls of the factory with the same arguments, the second
    after the first, return two classes that agree in their names, their
    declaration maps and their executor descriptors and, up to the
    identity of the channels and artifacts, in their default channels;
    the two classes are independent, as no object belongs to both; and
    their constructors, given the same keyword arguments, pass the same
    instance name and, up to the identity of the default channels, the
    same arguments to specification classes that agree. *)
Theorem factory_twice_alike_and_independent {PyType : Type} nm
    (inputs : option (list (@InputSpec PyType)))
    (outputs : option (list (@OutputSpec PyType)))
    (parameters : option (list (@InputSpec PyType)))
    img (cmd : list CommandlineArgumentType) (h h' : oid) :
  ((create_container_component nm inputs outputs parameters img cmd h).2
   ≤ h')%nat →
  let c1 :=
    (create_container_component nm inputs outputs parameters img cmd h).1 in
  let c2 :=
    (create_container_component nm inputs outputs parameters img cmd h').1 in
  alike_classes c1 c2
  ∧ class_oids c1 ## class_oids c2
  ∧ ∀ kwargs, alike_calls (new_component c1 kwargs) (new_component c2 kwargs).
Proof.
  intros Hlater c1 c2.
  assert (alike_spec_classes (SPEC_CLASS c1) (SPEC_CLASS c2)) as Hspec.
  { subst c1 c2. by rewrite !create_container_component_eq. }
  assert (forget_channel <$> default_input_channels (init_closure c1)
          = forget_channel <$> default_input_channels (init_closure c2))
    as Hin.
  { subst c1 c2. rewrite !factory_default_input_channels.
    by apply default_channels_forget. }
  assert (forget_channel <$> output_channels (init_closure c1)
          = forget_channel <$> output_channels (init_closure c2))
    as Hout.
  { subst c1 c2. rewrite !factory_output_channels.
    by apply default_channels_forget. }
  split; [|split].
  - split; [|split; [exact Hspec|split; [|split; [exact Hin|exact Hout]]]].
    all: subst c1 c2; by rewrite !create_container_component_eq.
  - apply elem_of_disjoint. intros i Hi1 Hi2.
    apply factory_oids_bounds in Hi1, Hi2. lia.
  - intros kwargs. split; [reflexivity|]. split; [exact Hspec|].
    rewrite !new_component_arguments. by apply merged_arguments_forget.
Qed.

Lemma factory_twice_alike_and_independent_witness :
  alike_classes trainer trainer_again
  ∧ class_oids trainer ## class_oids trainer_again.
Proof.
  assert ((create_container_component "Trainer"
             (Some [Input "data" "Dataset" false])
             (Some [Output "model" "Model"]) (Some [])
             "img" [Literal "run"] 0).2 ≤ 4)%nat as Hlater
    by (vm_compute; lia).
  destruct (factory_twice_alike_and_independent "Trainer"
              (Some [Input "data" "Dataset" false])
              (Some [Output "model" "Model"]) (Some [])
              "img" [Literal "run"] 0 4 Hlater) as (Halike & Hdisjoint & _).
  split; [exact Halike|exact Hdisjoint].
Defined.

(** * Further properties of the factory and of the constructor *)

(** ** Descriptors with pairwise distinct names *)

Lemma last_with_Some_elem {A : Type} (key : A → string) n l d :
  last_with key n l = Some d → d ∈ l ∧ key d = n.
Proof.
  unfold last_with. intros Hlast.
  apply last_Some_elem_of, list_elem_of_filter in Hlast. tauto.
Qed.

Lemma last_with_NoDup {A : Type} (key : A → string) l d :
  NoDup (key <$> l) → d ∈ l → last_with key (key d) l = Some d.
Proof.
  intros Hnodup Hd. apply list_elem_of_lookup in Hd as [i Hi].
  apply (last_with_index key l i d Hi). intros j d' Hij Hj Hkey.
  assert ((key <$> l) !! i = Some (key d)) as Hi'
    by by rewrite list_lookup_fmap, Hi.
  assert ((key <$> l) !! j = Some (key d)) as Hj'
    by by rewrite list_lookup_fmap, Hj, <- Hkey.
  pose proof (NoDup_lookup _ _ _ _ Hnodup Hi' Hj'). lia.
Qed.

(** With distinct names the order of the descriptors is irrelevant. *)
Lemma last_with_Permutation {A : Type} (key : A → string) n l l' :
  l ≡ₚ l' → NoDup (key <$> l) → last_with key n l = last_with key n l'.
Proof.
  intros Hperm Hnodup.
  assert (NoDup (key <$> l')) as Hnodup' by by rewrite <- Hperm.
  destruct (last_with key n l) as [d|] eqn:Hlast.
  - apply last_with_Some_elem in Hlast as [Hd <-].
    symmetry. apply last_with_NoDup; [done|]. by rewrite <- Hperm.
  - symmetry. apply last_with_None. intros d Hd.
    rewrite last_with_None in Hlast. apply Hlast. by rewrite Hperm.
Qed.

Lemma declare_Permutation {A D : Type} (key : A → string) (val : A → D) l l' :
  l ≡ₚ l' → NoDup (key <$> l) →
  declare key val l ∅ = declare key val l' ∅.
Proof.
  intros Hperm Hnodup. apply map_eq. intros n.
  by rewrite !declare_lookup, (last_with_Permutation key n l l').
Qed.

(** ** The shape of the default channels *)

Section Shape.

Context {PyType : Type}.

Implicit Types (nm img n : string) (h k i : oid).
Implicit Types (inputs parameters : option (list (@InputSpec PyType))).
Implicit Types (outputs : option (list (@OutputSpec PyType))).
Implicit Types (cmd : list CommandlineArgumentType).

Lemma default_channels_shape (l : list (string * PyType)) h n c :
  (default_channels l ∅ h).1 !! n = Some c →
  ∃ p k, last_with fst n l = Some p ∧ c = empty_channel_at p.2 k
         ∧ (h ≤ k)%nat ∧ (k + 2 ≤ h + 2 * length l)%nat.
Proof.
  intros Hc. pose proof (default_channels_lookup l ∅ h n) as Hlookup.
  destruct (last_with fst n l) as [p|].
  - destruct Hlookup as (k & Hk & Hlo & Hhi). exists p, k.
    rewrite Hk in Hc. by injection Hc as <-.
  - by rewrite Hlookup, lookup_empty in Hc.
Qed.

Lemma factory_default_input_shape nm inputs outputs parameters img cmd h n c :
  default_input_channels (init_closure
    (create_container_component nm inputs outputs parameters img cmd h).1)
    !! n = Some c →
  ∃ d k, last_with name n
           (filter (λ d, optional d = true) (or_empty_list inputs)) = Some d
         ∧ c = empty_channel_at (type d) k.
Proof.
  rewrite factory_default_input_channels.
  intros (p & k & Hlast & -> & _)%default_channels_shape.
  unfold optional_inputs in Hlast. rewrite last_with_fmap in Hlast.
  change (fst ∘ _) with (@name PyType) in Hlast.
  destruct (last_with name n _) as [d|]; [|done].
  injection Hlast as <-. by exists d, k.
Qed.

Lemma factory_output_shape nm inputs outputs parameters img cmd h n c :
  output_channels (init_closure
    (create_container_component nm inputs outputs parameters img cmd h).1)
    !! n = Some c →
  ∃ d k, last_with output_name n (or_empty_list outputs) = Some d
         ∧ c = empty_channel_at (output_type d) k.
Proof.
  rewrite factory_output_channels.
  intros (p & k & Hlast & -> & _)%default_channels_shape.
  rewrite output_pairs_last in Hlast.
  destruct (last_with output_name n _) as [d|]; [|done].
  injection Hlast as <-. by exists d, k.
Qed.

End Shape.

(** X1.  Every default channel of a generated class, for an input or for
    an output, shadowed names included, wraps exactly one artifact; the
    artifact is an instance of the channel's own type and an object other
    than the channel. *)
Theorem default_channels_wrap_one_artifact {PyType : Type} nm
    (inputs : option (list (@InputSpec PyType)))
    (outputs : option (list (@OutputSpec PyType)))
    (parameters : option (list (@InputSpec PyType)))
    img (cmd : list CommandlineArgumentType) (h : oid) (n : string) c :
  let cls :=
    (create_container_component nm inputs outputs parameters img cmd h).1 in
  default_input_channels (init_closure cls) !! n = Some c
  ∨ output_channels (init_closure cls) !! n = Some c →
  ∃ a, channel_artifacts c = [a]
       ∧ artifact_class a = channel_type c
       ∧ artifact_oid a ≠ channel_oid c.
Proof.
  intros cls [Hc|Hc]; subst cls.
  - apply factory_default_input_shape in Hc as (d & k & _ & ->).
    eexists. simpl. split; [reflexivity|]. split; [done|]. simpl. lia.
  - apply factory_output_shape in Hc as (d & k & _ & ->).
    eexists. simpl. split; [reflexivity|]. split; [done|]. simpl. lia.
Qed.

Lemma default_channels_wrap_one_artifact_witness :
  ∃ a, channel_artifacts (empty_channel_at "Examples" 0) = [a]
       ∧ artifact_class a = channel_type (empty_channel_at "Examples" 0)
       ∧ artifact_oid a ≠ channel_oid (empty_channel_at "Examples" 0).
Proof.
  apply (default_channels_wrap_one_artifact "Shadowed" (Some shadowed_inputs)
           None None "img" [Literal "run"] 0 "x").
  left. vm_compute. reflexivity.
Defined.

(** X2.  The default channel of an output always has the type that the
    output is declared with, duplicates among the output names or not:
    under every name with a default output channel, OUTPUTS holds a
    declaration of the channel's type. *)
Theorem output_default_typed_as_declared {PyType : Type} nm
    (inputs : option (list (@InputSpec PyType)))
    (outputs : option (list (@OutputSpec PyType)))
    (parameters : option (list (@InputSpec PyType)))
    img (cmd : list CommandlineArgumentType) (h : oid) (n : string) c :
  let cls :=
    (create_container_component nm inputs outputs parameters img cmd h).1 in
  output_channels (init_closure cls) !! n = Some c →
  OUTPUTS (SPEC_CLASS cls) !! n
    = Some {| channel_parameter_type := channel_type c |}.
Proof.
  intros cls Hc. subst cls.
  apply factory_output_shape in Hc as (d & k & Hlast & ->).
  rewrite factory_OUTPUTS.
  by apply (declare_empty_last output_name output_declaration).
Qed.

Lemma output_default_typed_as_declared_witness :
  OUTPUTS (SPEC_CLASS remodel) !! "model"
    = Some {| channel_parameter_type := "Metrics" |}.
Proof.
  apply (output_default_typed_as_declared "Remodel" None
           (Some shadowed_outputs) None "img" [Literal "run"] 0 "model"
           (empty_channel_at "Metrics" 2)).
  vm_compute. reflexivity.
Defined.

(** X3.  When the input names are pairwise distinct, every default input
    channel belongs to a declared input and has the type that the input
    is declared with.  (With a repeated name the two can differ, as in
    [shadowed].) *)
Theorem input_default_typed_as_declared {PyType : Type} nm
    (inputs : option (list (@InputSpec PyType)))
    (outputs : option (list (@OutputSpec PyType)))
    (parameters : option (list (@InputSpec PyType)))
    img (cmd : list CommandlineArgumentType) (h : oid) (n : string) c :
  NoDup (name <$> or_empty_list inputs) →
  let cls :=
    (create_container_component nm inputs outputs parameters img cmd h).1 in
  default_input_channels (init_closure cls) !! n = Some c →
  INPUTS (SPEC_CLASS cls) !! n
    = Some {| channel_parameter_type := channel_type c |}.
Proof.
  intros Hnodup cls Hc. subst cls.
  apply factory_default_input_shape in Hc as (d & k & Hlast & ->).
  apply last_with_Some_elem in Hlast as [Hd <-].
  apply list_elem_of_filter in Hd as [_ Hd].
  rewrite factory_INPUTS.
  apply (declare_empty_last name channel_declaration).
  by apply last_with_NoDup.
Qed.

Lemma input_default_typed_as_declared_witness :
  INPUTS (SPEC_CLASS validator) !! "schema"
    = Some {| channel_parameter_type := "Schema" |}.
Proof.
  assert (NoDup (name <$> or_empty_list
            (Some [Input "data" "Examples" false;
                   Input "schema" "Schema" true]))) as Hnodup.
  { simpl. apply NoDup_cons. split; [|apply NoDup_singleton].
    intros Hin%list_elem_of_singleton. discriminate Hin. }
  apply (input_default_typed_as_declared "Validator"
           (Some [Input "data" "Examples" false; Input "schema" "Schema" true])
           None None "img" [Literal "validate"] 0 "schema"
           (empty_channel_at "Schema" 0) Hnodup).
  vm_compute. reflexivity.
Defined.

(** ** Separation of the objects of a generated class *)

Section Separation.

Context {PyType : Type}.

Implicit Types (nm img n : string) (h k i : oid) (t : PyType).
Implicit Types (m : gmap string (@Channel PyType)).

Lemma elem_of_empty_channel_oids t k i :
  i ∈ channel_oids (empty_channel_at t k) ↔ i = S k ∨ i = k.
Proof.
  unfold channel_oids, empty_channel_at. simpl.
  rewrite !elem_of_union, !elem_of_singleton, elem_of_empty. tauto.
Qed.

(** The loop keeps the channels separated: a new channel is made of two
    identifiers that no earlier channel has. *)
Lemma default_channels_separated (l : list (string * PyType)) m h :
  channels_separated m →
  (∀ n c i, m !! n = Some c → i ∈ channel_oids c → (i < h)%nat) →
  channels_separated (default_channels l m h).1.
Proof.
  revert m h. induction l as [|[n t] l IH]; intros m h Hsep Hbelow; [done|].
  rewrite default_channels_cons. apply IH.
  - intros n1 n2 c1 c2 Hne H1 H2.
    apply lookup_insert_Some in H1 as [[<- <-]|[Hn1 H1]];
      apply lookup_insert_Some in H2 as [[<- <-]|[Hn2 H2]].
    + done.
    + apply elem_of_disjoint. intros i Hi1 Hi2.
      apply elem_of_empty_channel_oids in Hi1.
      specialize (Hbelow n2 c2 i H2 Hi2). lia.
    + apply elem_of_disjoint. intros i Hi1 Hi2.
      apply elem_of_empty_channel_oids in Hi2.
      specialize (Hbelow n1 c1 i H1 Hi1). lia.
    + by apply (Hsep n1 n2).
  - intros n' c i Hc Hi.
    apply lookup_insert_Some in Hc as [[<- <-]|[Hn' Hc]].
    + apply elem_of_empty_channel_oids in Hi. lia.
    + specialize (Hbelow n' c i Hc Hi). lia.
Qed.

Lemma default_channels_separated_empty (l : list (string * PyType)) h :
  channels_separated (default_channels l ∅ h).1.
Proof.
  apply default_channels_separated.
  - intros n1 n2 c1 c2 _ H1. by rewrite lookup_empty in H1.
  - intros n c i Hc. by rewrite lookup_empty in Hc.
Qed.

End Separation.

(** X4.  The objects of a generated class are all different: the default
    channels under two names share no channel and no artifact, no object
    belongs both to a default input channel and to a default output
    channel, and the two classes are objects other than each other and
    than the channels and artifacts. *)
Theorem generated_class_objects_are_separate {PyType : Type} nm
    (inputs : option (list (@InputSpec PyType)))
    (outputs : option (list (@OutputSpec PyType)))
    (parameters : option (list (@InputSpec PyType)))
    img (cmd : list CommandlineArgumentType) (h : oid) :
  let cls :=
    (create_container_component nm inputs outputs parameters img cmd h).1 in
  let defaults :=
    channels_oids (default_input_channels (init_closure cls))
    ∪ channels_oids (output_channels (init_closure cls)) in
  channels_separated (default_input_channels (init_closure cls))
  ∧ channels_separated (output_channels (init_closure cls))
  ∧ channels_oids (default_input_channels (init_closure cls))
    ## channels_oids (output_channels (init_closure cls))
  ∧ (class_oid cls ∉ defaults)
  ∧ (spec_class_oid (SPEC_CLASS cls) ∉ defaults)
  ∧ class_oid cls ≠ spec_class_oid (SPEC_CLASS cls).
Proof.
  intros cls defaults. subst defaults cls.
  pose proof (factory_class_oids nm inputs outputs parameters img cmd h)
    as [Hcls Hnext]. simpl in Hcls, Hnext.
  pose proof (factory_next nm inputs outputs parameters img cmd h) as Hcount.
  rewrite factory_default_input_channels, factory_output_channels.
  split; [apply default_channels_separated_empty|].
  split; [apply default_channels_separated_empty|].
  split; [|split; [|split]].
  - apply elem_of_disjoint. intros i Hi1%default_channels_oids
      Hi2%default_channels_oids. lia.
  - rewrite elem_of_union.
    intros [Hi%default_channels_oids|Hi%default_channels_oids]; lia.
  - rewrite elem_of_union.
    intros [Hi%default_channels_oids|Hi%default_channels_oids]; lia.
  - lia.
Qed.

(** ** What the constructor passes on *)




(** X7.  The default channels are shared by all the instances of a class:
    two constructor calls that leave a name with a default channel out
    pass one and the same channel object, which belongs to the class, to
    their specification instances. *)
Theorem default_channel_shared_by_instances {PyType : Type}
    (cls : @ComponentClass PyType)
    (kwargs1 kwargs2 : gmap string (@PyValue PyType)) (n : string) c :
  output_channels (init_closure cls) !! n = Some c
  ∨ (output_channels (init_closure cls) !! n = None
     ∧ default_input_channels (init_closure cls) !! n = Some c) →
  n = "instance_name" ∨ (kwargs1 !! n = None ∧ kwargs2 !! n = None) →
  spec_arguments (spec (new_component cls kwargs1)) !! n = Some (PyChannel c)
  ∧ spec_arguments (spec (new_component cls kwargs2)) !! n
    = Some (PyChannel c)
  ∧ channel_oids c ⊆ class_oids cls.
Proof.
  intros Hdefault Homitted.
  assert (∀ kwargs, n = "instance_name" ∨ kwargs !! n = None →
    spec_arguments (spec (new_component cls kwargs)) !! n
    = Some (PyChannel c)) as Hcall.
  { intros kwargs Hkw. rewrite new_component_lookup.
    assert ((if decide (n = "instance_name") then None else kwargs !! n)
            = None) as ->.
    { destruct (decide (n = "instance_name")); [done|]. by destruct Hkw. }
    destruct Hdefault as [->|[-> ->]]; done. }
  split; [|split].
  - apply Hcall. destruct Homitted as [?|[? ?]]; auto.
  - apply Hcall. destruct Homitted as [?|[? ?]]; auto.
  - intros i Hi. unfold class_oids. rewrite !elem_of_union.
    destruct Hdefault as [Hout|[_ Hin]].
    + right. apply elem_of_channels_oids. by exists n, c.
    + left. right. apply elem_of_channels_oids. by exists n, c.
Qed.

Lemma default_channel_shared_by_instances_witness :
  spec_arguments (spec (new_component trainer first_run)) !! "model"
  = spec_arguments (spec (new_component trainer nightly)) !! "model".
Proof.
  destruct (default_channel_shared_by_instances trainer first_run nightly
              "model" (empty_channel_at "Model" 0)) as (H1 & H2 & _).
  - left. vm_compute. reflexivity.
  - right. split; vm_compute; reflexivity.
  - by rewrite H1, H2.
Defined.

(** X8.  Passing None as [instance_name] is the same as passing no
    [instance_name]: the base initializer and the specification instance
    receive the same in both cases. *)
Theorem explicit_none_instance_name {PyType : Type}
    (cls : @ComponentClass PyType) (kwargs : gmap string (@PyValue PyType)) :
  new_component cls (<["instance_name" := PyNone]> kwargs)
  = new_component cls (delete "instance_name" kwargs).
Proof.
  unfold new_component, tfx_component_class_init, pop.
  by rewrite lookup_insert_eq, lookup_delete_eq, delete_insert_eq,
    delete_delete_eq.
Qed.

(** ** Repeated and reordered descriptors *)

(** X9.  The default input channel of a name is the one built for the
    last optional descriptor of that name, also when a required
    descriptor of the same name follows it: the required input then keeps
    a default channel, of the optional descriptor's type. *)
Theorem default_input_of_last_optional {PyType : Type} nm
    (inputs : option (list (@InputSpec PyType)))
    (outputs : option (list (@OutputSpec PyType)))
    (parameters : option (list (@InputSpec PyType)))
    img (cmd : list CommandlineArgumentType) (h : oid) (n : string) d :
  last_with name n (filter (λ d, optional d = true) (or_empty_list inputs))
    = Some d →
  let cls :=
    (create_container_component nm inputs outputs parameters img cmd h).1 in
  ∃ k, default_input_channels (init_closure cls) !! n
       = Some (_create_channel_with_empty_artifact (type d) k).1.
Proof.
  intros Hlast cls. subst cls. rewrite factory_default_input_channels.
  pose proof (default_channels_lookup
    (optional_inputs (or_empty_list inputs)) ∅ h n) as Hlookup.
  unfold optional_inputs in Hlookup at 1.
  rewrite last_with_fmap in Hlookup.
  change (fst ∘ _) with (@name PyType) in Hlookup.
  rewrite Hlast in Hlookup. destruct Hlookup as (k & Hk & _). by exists k.
Qed.

Lemma default_input_of_last_optional_witness :
  INPUTS (SPEC_CLASS shadowed) !! "x"
    = Some {| channel_parameter_type := "Schema" |}
  ∧ ∃ k, default_input_channels (init_closure shadowed) !! "x"
         = Some (_create_channel_with_empty_artifact "Examples" k).1.
Proof.
  split; [vm_compute; reflexivity|].
  apply (default_input_of_last_optional "Shadowed" (Some shadowed_inputs)
           None None "img" [Literal "run"] 0 "x" (Input "x" "Examples" true)).
  reflexivity.
Defined.

(** X10.  The factory creates one artifact and one channel for every
    optional input descriptor and for every output descriptor, a
    descriptor that a later one shadows included, none for a required
    input or for a parameter, and the two classes. *)
Theorem factory_allocations {PyType : Type} nm
    (inputs : option (list (@InputSpec PyType)))
    (outputs : option (list (@OutputSpec PyType)))
    (parameters : option (list (@InputSpec PyType)))
    img (cmd : list CommandlineArgumentType) (h : oid) :
  (create_container_component nm inputs outputs parameters img cmd h).2 =
  (h + 2 * length (filter (λ d, optional d = true) (or_empty_list inputs))
     + 2 * length (or_empty_list outputs) + 2)%nat.
Proof.
  rewrite factory_next. unfold optional_inputs, output_pairs.
  by rewrite !length_fmap.
Qed.

Section Reordering.

Context {PyType : Type}.

Lemma forget_empty_channel_at (t : PyType) k k' :
  forget_channel (empty_channel_at t k) = forget_channel (empty_channel_at t k').
Proof. reflexivity. Qed.

Lemma default_channels_forget_Permutation (l l' : list (string * PyType)) h h' :
  l ≡ₚ l' → NoDup l.*1 →
  forget_channel <$> (default_channels l ∅ h).1
  = forget_channel <$> (default_channels l' ∅ h').1.
Proof.
  intros Hperm Hnodup. apply map_eq. intros n. rewrite !lookup_fmap.
  pose proof (default_channels_lookup l ∅ h n) as H1.
  pose proof (default_channels_lookup l' ∅ h' n) as H2.
  rewrite <- (last_with_Permutation fst n l l' Hperm Hnodup) in H2.
  destruct (last_with fst n l) as [p|].
  - destruct H1 as (k & -> & _). destruct H2 as (k' & -> & _). simpl.
    by rewrite (forget_empty_channel_at p.2 k k').
  - by rewrite H1, H2.
Qed.

Lemma optional_inputs_Permutation (l l' : list (@InputSpec PyType)) :
  l ≡ₚ l' → optional_inputs l ≡ₚ optional_inputs l'.
Proof. intros Hperm. unfold optional_inputs. by rewrite Hperm. Qed.

Lemma optional_inputs_NoDup (l : list (@InputSpec PyType)) :
  NoDup (name <$> l) → NoDup (optional_inputs l).*1.
Proof.
  intros Hnodup. unfold optional_inputs. rewrite <- list_fmap_compose.
  apply (sublist_NoDup _ (name <$> l)); [done|].
  apply fmap_sublist, sublist_filter.
Qed.

End Reordering.

(** X11.  When the names of each list are pairwise distinct, the order of
    the descriptors in the lists is irrelevant: the factory called with
    reordered lists gives a class with the same names, the same
    declarations, the same executor descriptor and, up to object
    identity, the same default channels. *)
Theorem descriptor_order_irrelevant {PyType : Type} nm
    (inputs inputs' : list (@InputSpec PyType))
    (outputs outputs' : list (@OutputSpec PyType))
    (parameters parameters' : list (@InputSpec PyType))
    img (cmd : list CommandlineArgumentType) (h h' : oid) :
  inputs ≡ₚ inputs' → NoDup (name <$> inputs) →
  outputs ≡ₚ outputs' → NoDup (output_name <$> outputs) →
  parameters ≡ₚ parameters' → NoDup (name <$> parameters) →
  alike_classes
    (create_container_component nm (Some inputs) (Some outputs)
       (Some parameters) img cmd h).1
    (create_container_component nm (Some inputs') (Some outputs')
       (Some parameters') img cmd h').1.
Proof.
  intros Hin Hin_nodup Hout Hout_nodup Hpar Hpar_nodup.
  unfold alike_classes, alike_spec_classes.
  rewrite !factory_INPUTS, !factory_OUTPUTS, !factory_PARAMETERS,
    !factory_default_input_channels, !factory_output_channels. simpl.
  rewrite (declare_Permutation name channel_declaration inputs inputs'),
    (declare_Permutation output_name output_declaration outputs outputs'),
    (declare_Permutation name parameter_declaration parameters parameters')
    by done.
  split; [by rewrite !create_container_component_eq|].
  split; [by rewrite !create_container_component_eq|].
  split; [by rewrite !create_container_component_eq|].
  split.
  - apply default_channels_forget_Permutation.
    + by apply optional_inputs_Permutation.
    + by apply optional_inputs_NoDup.
  - apply default_channels_forget_Permutation.
    + unfold output_pairs. by rewrite Hout.
    + by rewrite output_pairs_names.
Qed.

Lemma descriptor_order_irrelevant_witness :
  alike_classes validator validator_swapped.
Proof.
  apply (descriptor_order_irrelevant "Validator"
           [Input "data" "Examples" false; Input "schema" "Schema" true]
           [Input "schema" "Schema" true; Input "data" "Examples" false]
           [] [] [] [] "img" [Literal "validate"] 0 7).
  - apply perm_swap.
  - simpl. apply NoDup_cons. split; [|apply NoDup_singleton].
    intros Hin%list_elem_of_singleton. discriminate Hin.
  - reflexivity.
  - apply NoDup_nil_2.
  - reflexivity.
  - apply NoDup_nil_2.
Defined.
